(** * debug.h: the CSR address map of the Wishbone debug bridge

    The header is a flat list of object-like macros, each of which expands
    to one hexadecimal integer literal.  This development embeds the six
    macros as integers, the header as the ordered list of its [#define]
    directives, and the preprocessor's macro table as a finite map, and
    proves the structural properties of the address map. *)

From Stdlib Require Import ZArith List String Ascii HexString Lia.
From stdpp Require Import base option list gmap strings.

Local Open Scope Z_scope.

(** ** The macros of debug.h *)

Definition CSR_XADC_TEMPERATURE_ADDR : Z := 0xe0005800.

(* cpu_or_bridge *)
Definition CSR_CPU_OR_BRIDGE_BASE : Z := 0xe0006000.

Definition CSR_CPU_OR_BRIDGE_DEBUG_CORE : Z := 0xe0006000.
Definition CSR_CPU_OR_BRIDGE_DEBUG_DATA : Z := 0xe0006004.
Definition CSR_CPU_OR_BRIDGE_DEBUG_SYNC : Z := 0xe0006008.
Definition CSR_CPU_OR_BRIDGE_DEBUG_PACKET_COUNTER : Z := 0xe000600c.

(** A [#define NAME VALUE] directive: the macro's identifier and the value
    of the integer literal it expands to. *)
Definition directive : Type := string * Z.

(** The directives of debug.h, in the order of the file. *)
Definition debug_h : list directive :=
  [ ("CSR_XADC_TEMPERATURE_ADDR"%string, CSR_XADC_TEMPERATURE_ADDR);
    ("CSR_CPU_OR_BRIDGE_BASE"%string, CSR_CPU_OR_BRIDGE_BASE);
    ("CSR_CPU_OR_BRIDGE_DEBUG_CORE"%string, CSR_CPU_OR_BRIDGE_DEBUG_CORE);
    ("CSR_CPU_OR_BRIDGE_DEBUG_DATA"%string, CSR_CPU_OR_BRIDGE_DEBUG_DATA);
    ("CSR_CPU_OR_BRIDGE_DEBUG_SYNC"%string, CSR_CPU_OR_BRIDGE_DEBUG_SYNC);
    ("CSR_CPU_OR_BRIDGE_DEBUG_PACKET_COUNTER"%string,
      CSR_CPU_OR_BRIDGE_DEBUG_PACKET_COUNTER) ].

(** The registers of the cpu_or_bridge block, in the order of the file
    (the block's base macro is not a register of its own). *)
Definition cpu_or_bridge_regs : list Z :=
  [ CSR_CPU_OR_BRIDGE_DEBUG_CORE;
    CSR_CPU_OR_BRIDGE_DEBUG_DATA;
    CSR_CPU_OR_BRIDGE_DEBUG_SYNC;
    CSR_CPU_OR_BRIDGE_DEBUG_PACKET_COUNTER ].

(** ** The preprocessor's macro table

    Processing a [#define] binds the macro's name to its value; a later
    [#define] of the same name takes the place of the earlier binding. *)

Definition define (env : gmap string Z) (d : directive) : gmap string Z :=
  <[d.1 := d.2]> env.

Definition preprocess (ds : list directive) : gmap string Z :=
  foldl define ∅ ds.

(** The macro table once the first [k] directives of debug.h are read. *)
Definition macros_after (k : nat) : gmap string Z :=
  preprocess (take k debug_h).

(** The macro table a unit that includes debug.h sees. *)
Definition macros : gmap string Z := preprocess debug_h.

(** Expanding an identifier: its value when it names a macro. *)
Definition expand (env : gmap string Z) (name : string) : option Z :=
  env !! name.

(** The macro table without the block's base macro: the registers. *)
Definition registers : gmap string Z :=
  delete "CSR_CPU_OR_BRIDGE_BASE"%string macros.

(** No two names of [env] stand for the same value. *)
Definition pairwise_distinct (env : gmap string Z) : Prop :=
  ∀ (n1 n2 : string) (v1 v2 : Z),
    n1 ≠ n2 → expand env n1 = Some v1 → expand env n2 = Some v2 → v1 ≠ v2.

(** The addresses of a block of [n] 32-bit registers at [base]. *)
Definition in_block (base : Z) (n : Z) (a : Z) : Prop :=
  base <= a < base + 4 * n.

(** ** The text of debug.h *)

Definition newline : ascii := "010"%char.
Definition space : ascii := " "%char.

Definition header_lines : list string :=
  [ "#define CSR_XADC_TEMPERATURE_ADDR 0xe0005800";
    EmptyString;
    "/* cpu_or_bridge */";
    "#define CSR_CPU_OR_BRIDGE_BASE 0xe0006000";
    EmptyString;
    "#define CSR_CPU_OR_BRIDGE_DEBUG_CORE 0xe0006000";
    "#define CSR_CPU_OR_BRIDGE_DEBUG_DATA 0xe0006004";
    "#define CSR_CPU_OR_BRIDGE_DEBUG_SYNC 0xe0006008";
    "#define CSR_CPU_OR_BRIDGE_DEBUG_PACKET_COUNTER 0xe000600c" ]%string.

(** The file: its lines joined by newlines (it ends without one). *)
Definition header_text : string :=
  String.concat (String newline EmptyString) header_lines.

(** ** Reading and writing the header's text *)

(** Cuts [s] at every [sep]: the piece before the first [sep], and the
    pieces after it. *)
Fixpoint split_at (sep : ascii) (s : string) : string * list string :=
  match s with
  | EmptyString => (EmptyString, [])
  | String c s' =>
      let '(w, ws) := split_at sep s' in
      if Ascii.eqb c sep then (EmptyString, w :: ws) else (String c w, ws)
  end.

Definition lines (s : string) : list string :=
  let '(w, ws) := split_at newline s in w :: ws.

Fixpoint strip_prefix (p s : string) : option string :=
  match p, s with
  | EmptyString, _ => Some s
  | String a p', String b s' =>
      if Ascii.eqb a b then strip_prefix p' s' else None
  | String _ _, EmptyString => None
  end.

Fixpoint ends_with (suffix s : string) : bool :=
  String.eqb suffix s ||
  match s with
  | EmptyString => false
  | String _ s' => ends_with suffix s'
  end.

Fixpoint string_forall (p : ascii → bool) (s : string) : bool :=
  match s with
  | EmptyString => true
  | String c s' => p c && string_forall p s'
  end.

Definition in_range (lo hi c : ascii) : bool :=
  ((N_of_ascii lo <=? N_of_ascii c) && (N_of_ascii c <=? N_of_ascii hi))%N.

Definition is_digit (c : ascii) : bool := in_range "0" "9" c.

Definition is_nondigit (c : ascii) : bool :=
  in_range "a" "z" c || in_range "A" "Z" c || Ascii.eqb c "_".

(** A C identifier: a nondigit followed by nondigits and digits. *)
Definition is_ident (s : string) : bool :=
  match s with
  | EmptyString => false
  | String c s' =>
      is_nondigit c && string_forall (λ c, is_nondigit c || is_digit c) s'
  end.

Definition is_hex_digit (c : ascii) : bool :=
  match HexString.ascii_to_digit c with Some _ => true | None => false end.

(** A hexadecimal literal as the header writes them: [0x] and at least one
    hexadecimal digit, no suffix. *)
Definition is_hex_literal (s : string) : bool :=
  match strip_prefix "0x" s with
  | Some (String c ds) => is_hex_digit c && string_forall is_hex_digit ds
  | _ => false
  end.

Definition is_blank (s : string) : bool := string_forall (Ascii.eqb space) s.

(** A line that is one comment, as the block title of the header is. *)
Definition is_comment (s : string) : bool :=
  match strip_prefix "/*" s with
  | Some body => ends_with "*/" body
  | None => false
  end.

(** Modelled from the spec: the repository holds no reader of its header
    (the C preprocessor reads it); this one reads the three kinds of line
    the header has: a blank line and a comment line define nothing, and
    [#define NAME 0x...] defines [NAME] as the literal's value.  Any other
    line is refused. *)
Definition parse_line (l : string) : option (option directive) :=
  if is_blank l || is_comment l then Some None
  else
    rest ← strip_prefix "#define " l;
    match split_at space rest with
    | (name, [lit]) =>
        if is_ident name && is_hex_literal lit
        then Some (Some (name, HexString.to_Z lit))
        else None
    | _ => None
    end.

Fixpoint parse_lines (ls : list string) : option (list directive) :=
  match ls with
  | [] => Some []
  | l :: ls' =>
      r ← parse_line l;
      ds ← parse_lines ls';
      Some (match r with Some d => d :: ds | None => ds end)
  end.

(** Modelled from the spec: re-parsing the header's text. *)
Definition parse_header (text : string) : option (list directive) :=
  parse_lines (lines text).

(** Modelled from the spec: the textual form of one directive, the way the
    header writes it. *)
Definition serialise_directive (d : directive) : string :=
  ("#define " ++ d.1 ++ " " ++ HexString.of_Z d.2)%string.

(** Modelled from the spec: the textual form of a list of directives, one
    per line. *)
Definition serialise (ds : list directive) : string :=
  String.concat (String newline EmptyString) (map serialise_directive ds).

(** The lines of the header that are directives. *)
Definition define_lines (ls : list string) : list string :=
  filter (λ l, is_Some (strip_prefix "#define " l)) ls.

(** The interface table of the specification: each name with the address
    the table lists for it. *)
Definition spec_interface_table : list (string * string) :=
  [ ("CSR_XADC_TEMPERATURE_ADDR", "0xe0005800");
    ("CSR_CPU_OR_BRIDGE_BASE", "0xe0006000");
    ("CSR_CPU_OR_BRIDGE_DEBUG_CORE", "0xe0006000");
    ("CSR_CPU_OR_BRIDGE_DEBUG_DATA", "0xe0006004");
    ("CSR_CPU_OR_BRIDGE_DEBUG_SYNC", "0xe0006008");
    ("CSR_CPU_OR_BRIDGE_DEBUG_PACKET_COUNTER", "0xe000600c") ]%string.

(** A directive the header's textual form can carry: the name is an
    identifier and the value is not negative. *)
Definition wf_directive (d : directive) : Prop :=
  is_ident d.1 = true ∧ 0 <= d.2.

(** [c] does not occur in [s]. *)
Definition no_char (c : ascii) (s : string) : bool :=
  string_forall (λ x, negb (Ascii.eqb x c)) s.

(** The number of directives of [ds] that define [name]. *)
Definition times_defined (name : string) (ds : list directive) : nat :=
  length (filter (λ d, d.1 = name) ds).

(** ** The macro table of a list of directives *)

Section Preprocess.
Implicit Types (ds : list directive) (env : gmap string Z).
Implicit Types (name : string) (v : Z).

Lemma foldl_define_fresh ds env name :
  name ∉ ds.*1 → foldl define env ds !! name = env !! name.
Proof.
  revert env. induction ds as [|[n w] ds IH]; intros env Hfresh; [done|].
  cbn in *. apply not_elem_of_cons in Hfresh as [Hne Hfresh].
  rewrite IH by done. unfold define; cbn.
  by rewrite lookup_insert_ne.
Qed.

Lemma foldl_define_lookup ds env name v :
  NoDup ds.*1 → (name, v) ∈ ds → foldl define env ds !! name = Some v.
Proof.
  revert env. induction ds as [|[n w] ds IH]; intros env Hnodup Hin.
  - by apply elem_of_nil in Hin.
  - cbn in *. apply NoDup_cons in Hnodup as [Hfresh Hnodup].
    apply elem_of_cons in Hin as [[= -> ->]|Hin].
    + rewrite foldl_define_fresh by done.
      unfold define; cbn. by rewrite lookup_insert_eq.
    + by apply IH.
Qed.

Lemma foldl_define_inv ds env name v :
  foldl define env ds !! name = Some v →
  (name, v) ∈ ds ∨ env !! name = Some v.
Proof.
  revert env. induction ds as [|[n w] ds IH]; intros env Hlook; [by right|].
  cbn in Hlook. apply IH in Hlook as [Hin|Hlook].
  - left. apply elem_of_cons. by right.
  - unfold define in Hlook; cbn in Hlook.
    destruct (decide (n = name)) as [->|Hne].
    + rewrite lookup_insert_eq in Hlook. injection Hlook as ->.
      left. apply elem_of_cons. by left.
    + rewrite lookup_insert_ne in Hlook by done. by right.
Qed.

Lemma preprocess_lookup ds name v :
  NoDup ds.*1 → preprocess ds !! name = Some v ↔ (name, v) ∈ ds.
Proof.
  intros Hnodup. unfold preprocess. split.
  - intros [Hin|Hempty]%foldl_define_inv; [done|].
    by rewrite lookup_empty in Hempty.
  - by apply foldl_define_lookup.
Qed.

(** With every name defined once, reading further directives keeps what
    the directives read so far have bound. *)
Lemma preprocess_take_mono ds (i j : nat) name v :
  NoDup ds.*1 → (i ≤ j)%nat →
  preprocess (take i ds) !! name = Some v →
  preprocess (take j ds) !! name = Some v.
Proof.
  intros Hnodup Hle Hlook.
  assert (Hsub : take i ds `sublist_of` take j ds).
  { rewrite <- (Nat.min_l i j), <- take_take by done. apply sublist_take. }
  assert (Hnd : ∀ k, NoDup (take k ds).*1).
  { intros k. rewrite fmap_take.
    eapply sublist_NoDup; [done|apply sublist_take]. }
  apply preprocess_lookup in Hlook; [|done].
  apply preprocess_lookup; [done|].
  eapply elem_of_submseteq; [done|]. by apply sublist_submseteq.
Qed.
End Preprocess.

Lemma debug_h_names_NoDup : NoDup debug_h.*1.
Proof. compute_done. Qed.

Lemma macros_lookup (name : string) (v : Z) :
  macros !! name = Some v ↔ (name, v) ∈ debug_h.
Proof. apply preprocess_lookup, debug_h_names_NoDup. Qed.

Lemma debug_h_cases (name : string) (v : Z) :
  (name, v) ∈ debug_h →
  (name, v) = ("CSR_XADC_TEMPERATURE_ADDR"%string, CSR_XADC_TEMPERATURE_ADDR) ∨
  (name, v) = ("CSR_CPU_OR_BRIDGE_BASE"%string, CSR_CPU_OR_BRIDGE_BASE) ∨
  (name, v) = ("CSR_CPU_OR_BRIDGE_DEBUG_CORE"%string, CSR_CPU_OR_BRIDGE_DEBUG_CORE) ∨
  (name, v) = ("CSR_CPU_OR_BRIDGE_DEBUG_DATA"%string, CSR_CPU_OR_BRIDGE_DEBUG_DATA) ∨
  (name, v) = ("CSR_CPU_OR_BRIDGE_DEBUG_SYNC"%string, CSR_CPU_OR_BRIDGE_DEBUG_SYNC) ∨
  (name, v) = ("CSR_CPU_OR_BRIDGE_DEBUG_PACKET_COUNTER"%string,
                CSR_CPU_OR_BRIDGE_DEBUG_PACKET_COUNTER).
Proof.
  unfold debug_h. rewrite !elem_of_cons, elem_of_nil. tauto.
Qed.

Lemma registers_lookup (name : string) (v : Z) :
  registers !! name = Some v ↔
  name ≠ "CSR_CPU_OR_BRIDGE_BASE"%string ∧ (name, v) ∈ debug_h.
Proof.
  unfold registers. rewrite lookup_delete_Some, macros_lookup.
  split; intros [??]; split; congruence || done.
Qed.

(** Splits a goal about a directive of debug.h into its six cases. *)
Ltac directive_cases H :=
  apply debug_h_cases in H;
  destruct H as [H|[H|[H|[H|[H|H]]]]];
  injection H as -> ->.

(** ** The address map *)

(** C1: each of the six macros has the value the specification's interface
    table lists for it: 0xe0005800 for CSR_XADC_TEMPERATURE_ADDR,
    0xe0006000 for CSR_CPU_OR_BRIDGE_BASE and CSR_CPU_OR_BRIDGE_DEBUG_CORE,
    0xe0006004 for CSR_CPU_OR_BRIDGE_DEBUG_DATA, 0xe0006008 for
    CSR_CPU_OR_BRIDGE_DEBUG_SYNC and 0xe000600c for
    CSR_CPU_OR_BRIDGE_DEBUG_PACKET_COUNTER; and expanding each name of the
    table gives the value its row denotes. *)
Theorem constants_equal_listed_values :
  CSR_XADC_TEMPERATURE_ADDR = 0xe0005800 ∧
  CSR_CPU_OR_BRIDGE_BASE = 0xe0006000 ∧
  CSR_CPU_OR_BRIDGE_DEBUG_CORE = 0xe0006000 ∧
  CSR_CPU_OR_BRIDGE_DEBUG_DATA = 0xe0006004 ∧
  CSR_CPU_OR_BRIDGE_DEBUG_SYNC = 0xe0006008 ∧
  CSR_CPU_OR_BRIDGE_DEBUG_PACKET_COUNTER = 0xe000600c ∧
  Forall (λ row, expand macros row.1 = Some (HexString.to_Z row.2))
         spec_interface_table ∧
  spec_interface_table.*1 = debug_h.*1.
Proof.
  repeat split; try reflexivity.
  unfold spec_interface_table.
  repeat (apply Forall_cons; split; [by vm_compute|]).
  apply Forall_nil_2.
Qed.

(** C2, as the specification states it, fails: CSR_CPU_OR_BRIDGE_BASE and
    CSR_CPU_OR_BRIDGE_DEBUG_CORE are two names of the one address
    0xe0006000, so the six values are not pairwise distinct. *)
Lemma six_constants_not_pairwise_distinct : ¬ pairwise_distinct macros.
Proof.
  intros Hdistinct.
  apply (Hdistinct "CSR_CPU_OR_BRIDGE_BASE"%string
                   "CSR_CPU_OR_BRIDGE_DEBUG_CORE"%string
                   CSR_CPU_OR_BRIDGE_BASE CSR_CPU_OR_BRIDGE_DEBUG_CORE);
    [discriminate | reflexivity | reflexivity | reflexivity].
Qed.

(** C2, amended: two different names among the six have the same value
    exactly when they are CSR_CPU_OR_BRIDGE_BASE and
    CSR_CPU_OR_BRIDGE_DEBUG_CORE (in either order); every other pair of
    different names has different values. *)
Theorem constants_distinct_up_to_base_alias
    (n1 n2 : string) (v1 v2 : Z) :
  n1 ≠ n2 →
  expand macros n1 = Some v1 →
  expand macros n2 = Some v2 →
  v1 = v2 ↔
    (n1 = "CSR_CPU_OR_BRIDGE_BASE"%string ∧
     n2 = "CSR_CPU_OR_BRIDGE_DEBUG_CORE"%string) ∨
    (n1 = "CSR_CPU_OR_BRIDGE_DEBUG_CORE"%string ∧
     n2 = "CSR_CPU_OR_BRIDGE_BASE"%string).
Proof.
  unfold expand. intros Hne H1%macros_lookup H2%macros_lookup.
  directive_cases H1; directive_cases H2;
    (split; [intros Heq | intros [[? ?]|[? ?]]]);
    first [ done | by left | by right | by exfalso; vm_compute in Heq ].
Qed.

Lemma constants_distinct_up_to_base_alias_witness :
  CSR_XADC_TEMPERATURE_ADDR = CSR_CPU_OR_BRIDGE_BASE ↔
    ("CSR_XADC_TEMPERATURE_ADDR"%string = "CSR_CPU_OR_BRIDGE_BASE"%string ∧
     "CSR_CPU_OR_BRIDGE_BASE"%string = "CSR_CPU_OR_BRIDGE_DEBUG_CORE"%string) ∨
    ("CSR_XADC_TEMPERATURE_ADDR"%string = "CSR_CPU_OR_BRIDGE_DEBUG_CORE"%string ∧
     "CSR_CPU_OR_BRIDGE_BASE"%string = "CSR_CPU_OR_BRIDGE_BASE"%string).
Proof.
  apply (constants_distinct_up_to_base_alias
           "CSR_XADC_TEMPERATURE_ADDR" "CSR_CPU_OR_BRIDGE_BASE");
    [discriminate | reflexivity | reflexivity].
Defined.

(** C3: the four cpu_or_bridge debug registers are at strictly increasing
    addresses, CSR_CPU_OR_BRIDGE_DEBUG_CORE < CSR_CPU_OR_BRIDGE_DEBUG_DATA <
    CSR_CPU_OR_BRIDGE_DEBUG_SYNC < CSR_CPU_OR_BRIDGE_DEBUG_PACKET_COUNTER,
    each 4 bytes after the one before it, so that no two of the four
    addresses are the same. *)
Theorem cpu_or_bridge_regs_increasing_by_4 :
  CSR_CPU_OR_BRIDGE_DEBUG_CORE < CSR_CPU_OR_BRIDGE_DEBUG_DATA ∧
  CSR_CPU_OR_BRIDGE_DEBUG_DATA < CSR_CPU_OR_BRIDGE_DEBUG_SYNC ∧
  CSR_CPU_OR_BRIDGE_DEBUG_SYNC < CSR_CPU_OR_BRIDGE_DEBUG_PACKET_COUNTER ∧
  CSR_CPU_OR_BRIDGE_DEBUG_DATA - CSR_CPU_OR_BRIDGE_DEBUG_CORE = 4 ∧
  CSR_CPU_OR_BRIDGE_DEBUG_SYNC - CSR_CPU_OR_BRIDGE_DEBUG_DATA = 4 ∧
  CSR_CPU_OR_BRIDGE_DEBUG_PACKET_COUNTER - CSR_CPU_OR_BRIDGE_DEBUG_SYNC = 4 ∧
  NoDup cpu_or_bridge_regs.
Proof.
  unfold cpu_or_bridge_regs, CSR_CPU_OR_BRIDGE_DEBUG_CORE,
    CSR_CPU_OR_BRIDGE_DEBUG_DATA, CSR_CPU_OR_BRIDGE_DEBUG_SYNC,
    CSR_CPU_OR_BRIDGE_DEBUG_PACKET_COUNTER.
  repeat split; try lia.
  repeat (apply NoDup_cons; split;
          [rewrite ?elem_of_cons, elem_of_nil; lia|]).
  apply NoDup_nil_2.
Qed.

(** C4: CSR_CPU_OR_BRIDGE_DEBUG_CORE is CSR_CPU_OR_BRIDGE_BASE, and for
    each index i in 0..3 the i-th debug register is at
    CSR_CPU_OR_BRIDGE_BASE + 4*i. *)
Theorem cpu_or_bridge_regs_contiguous (i : nat) :
  (i < 4)%nat →
  CSR_CPU_OR_BRIDGE_DEBUG_CORE = CSR_CPU_OR_BRIDGE_BASE ∧
  cpu_or_bridge_regs !! i = Some (CSR_CPU_OR_BRIDGE_BASE + 4 * Z.of_nat i).
Proof.
  intros Hi. split; [reflexivity|].
  do 4 (destruct i as [|i]; [reflexivity|]). lia.
Qed.

Lemma cpu_or_bridge_regs_contiguous_witness :
  CSR_CPU_OR_BRIDGE_DEBUG_CORE = CSR_CPU_OR_BRIDGE_BASE ∧
  cpu_or_bridge_regs !! 3%nat = Some (CSR_CPU_OR_BRIDGE_BASE + 4 * Z.of_nat 3).
Proof. apply (cpu_or_bridge_regs_contiguous 3). lia. Defined.

(** C5: leaving the base alias CSR_CPU_OR_BRIDGE_BASE out, the five
    register addresses are pairwise distinct: two different names among
    CSR_XADC_TEMPERATURE_ADDR, CSR_CPU_OR_BRIDGE_DEBUG_CORE,
    CSR_CPU_OR_BRIDGE_DEBUG_DATA, CSR_CPU_OR_BRIDGE_DEBUG_SYNC and
    CSR_CPU_OR_BRIDGE_DEBUG_PACKET_COUNTER have different values. *)
Theorem registers_pairwise_distinct (n1 n2 : string) (v1 v2 : Z) :
  n1 ≠ n2 →
  expand registers n1 = Some v1 →
  expand registers n2 = Some v2 →
  v1 ≠ v2.
Proof.
  unfold expand.
  intros Hne [Hb1 H1]%registers_lookup [Hb2 H2]%registers_lookup.
  directive_cases H1; directive_cases H2; done.
Qed.

Lemma registers_pairwise_distinct_witness :
  CSR_CPU_OR_BRIDGE_DEBUG_CORE ≠ CSR_CPU_OR_BRIDGE_DEBUG_PACKET_COUNTER.
Proof.
  apply (registers_pairwise_distinct
           "CSR_CPU_OR_BRIDGE_DEBUG_CORE"
           "CSR_CPU_OR_BRIDGE_DEBUG_PACKET_COUNTER");
    [discriminate | reflexivity | reflexivity].
Defined.

(** C7: each of the six values is a 32-bit unsigned integer: at least 0
    and less than 2^32. *)
Theorem constants_fit_uint32 (name : string) (v : Z) :
  expand macros name = Some v → 0 ≤ v < 2 ^ 32.
Proof.
  unfold expand. intros H%macros_lookup.
  directive_cases H; by vm_compute.
Qed.

Lemma constants_fit_uint32_witness :
  0 ≤ CSR_CPU_OR_BRIDGE_DEBUG_PACKET_COUNTER < 2 ^ 32.
Proof.
  apply (constants_fit_uint32 "CSR_CPU_OR_BRIDGE_DEBUG_PACKET_COUNTER").
  reflexivity.
Defined.

(** C8: CSR_XADC_TEMPERATURE_ADDR is outside the cpu_or_bridge block: it is
    below CSR_CPU_OR_BRIDGE_BASE (its four bytes end below it too), it is
    not in [0xe0006000, 0xe0006010), and each of the four debug registers
    is in that range and differs from it. *)
Theorem xadc_outside_cpu_or_bridge_block :
  CSR_XADC_TEMPERATURE_ADDR < CSR_CPU_OR_BRIDGE_BASE ∧
  CSR_XADC_TEMPERATURE_ADDR + 4 ≤ CSR_CPU_OR_BRIDGE_BASE ∧
  ¬ (0xe0006000 ≤ CSR_XADC_TEMPERATURE_ADDR < 0xe0006010) ∧
  (∀ a, in_block CSR_CPU_OR_BRIDGE_BASE 4 a ↔ 0xe0006000 ≤ a < 0xe0006010) ∧
  Forall (λ a, in_block CSR_CPU_OR_BRIDGE_BASE 4 a ∧
               a ≠ CSR_XADC_TEMPERATURE_ADDR) cpu_or_bridge_regs.
Proof.
  unfold in_block, cpu_or_bridge_regs, CSR_XADC_TEMPERATURE_ADDR,
    CSR_CPU_OR_BRIDGE_BASE, CSR_CPU_OR_BRIDGE_DEBUG_CORE,
    CSR_CPU_OR_BRIDGE_DEBUG_DATA, CSR_CPU_OR_BRIDGE_DEBUG_SYNC,
    CSR_CPU_OR_BRIDGE_DEBUG_PACKET_COUNTER.
  split; [lia|]. split; [lia|]. split; [lia|]. split; [intros a; lia|].
  repeat (apply Forall_cons; split; [lia|]). apply Forall_nil_2.
Qed.

(** C9: each of the six values is 32-bit aligned: divisible by 4. *)
Theorem constants_aligned_4 (name : string) (v : Z) :
  expand macros name = Some v → (4 | v) ∧ v mod 4 = 0.
Proof.
  unfold expand. intros H%macros_lookup.
  directive_cases H; (split; [|reflexivity]).
  - by exists 0x38001600.
  - by exists 0x38001800.
  - by exists 0x38001800.
  - by exists 0x38001801.
  - by exists 0x38001802.
  - by exists 0x38001803.
Qed.

Lemma constants_aligned_4_witness :
  (4 | CSR_XADC_TEMPERATURE_ADDR) ∧ CSR_XADC_TEMPERATURE_ADDR mod 4 = 0.
Proof.
  apply (constants_aligned_4 "CSR_XADC_TEMPERATURE_ADDR"). reflexivity.
Defined.

(** C10: the constants are immutable and deterministic.  The only steps of
    the header are its directives, and none of them rebinds a name: a
    value a name has once the first i directives are read is the value it
    has after any j >= i of them, and it is the value of the whole header;
    and two expansions of a name, anywhere in the header, give the same
    value. *)
Theorem constants_immutable_deterministic
    (name : string) (i j : nat) (v : Z) :
  expand (macros_after i) name = Some v →
  ((i ≤ j)%nat → expand (macros_after j) name = Some v) ∧
  expand macros name = Some v ∧
  (∀ w, expand (macros_after j) name = Some w → w = v).
Proof.
  unfold expand, macros_after. intros Hi.
  assert (Hmono : ∀ a b : nat, (a ≤ b)%nat → ∀ x,
            preprocess (take a debug_h) !! name = Some x →
            preprocess (take b debug_h) !! name = Some x).
  { intros a b Hab x.
    by apply preprocess_take_mono; [apply debug_h_names_NoDup|]. }
  assert (Hall : ∀ a x, preprocess (take a debug_h) !! name = Some x →
            macros !! name = Some x).
  { intros a x Ha. unfold macros.
    rewrite <- (take_ge debug_h (a `max` length debug_h)) by lia.
    apply (Hmono a); [lia|done]. }
  split; [intros Hle; by apply (Hmono i j)|]. split; [by apply (Hall i)|].
  intros w Hw. apply Hall in Hi, Hw. congruence.
Qed.

Lemma constants_immutable_deterministic_witness :
  ((2 ≤ 6)%nat →
     expand (macros_after 6) "CSR_CPU_OR_BRIDGE_BASE" =
       Some CSR_CPU_OR_BRIDGE_BASE) ∧
  expand macros "CSR_CPU_OR_BRIDGE_BASE" = Some CSR_CPU_OR_BRIDGE_BASE ∧
  (∀ w, expand (macros_after 6) "CSR_CPU_OR_BRIDGE_BASE" = Some w →
        w = CSR_CPU_OR_BRIDGE_BASE).
Proof.
  apply (constants_immutable_deterministic "CSR_CPU_OR_BRIDGE_BASE" 2 6).
  reflexivity.
Defined.

(** ** Writing the header and reading it back *)

Section Strings.
Local Open Scope string_scope.

Lemma string_forall_impl (p q : ascii → bool) (s : string) :
  (∀ c, p c = true → q c = true) →
  string_forall p s = true → string_forall q s = true.
Proof.
  intros Hpq. induction s as [|c s IH]; cbn; [done|].
  intros [Hc Hs]%andb_prop. by rewrite (Hpq c Hc), IH.
Qed.

Lemma string_forall_app (p : ascii → bool) (s t : string) :
  string_forall p (s ++ t) = string_forall p s && string_forall p t.
Proof.
  induction s as [|c s IH]; simpl; [done|]. by rewrite IH, andb_assoc.
Qed.

Lemma split_at_no_char (sep : ascii) (w : string) :
  no_char sep w = true → split_at sep w = (w, []).
Proof.
  unfold no_char. induction w as [|c w IH]; cbn; [done|].
  intros [Hc Hw]%andb_prop. rewrite (IH Hw).
  by destruct (Ascii.eqb c sep).
Qed.

Lemma split_at_app (sep : ascii) (w rest : string) :
  no_char sep w = true →
  split_at sep (w ++ String sep rest) =
    (w, (split_at sep rest).1 :: (split_at sep rest).2).
Proof.
  unfold no_char. induction w as [|c w IH]; simpl.
  - intros _. rewrite Ascii.eqb_refl. by destruct (split_at sep rest).
  - intros [Hc Hw]%andb_prop. rewrite (IH Hw).
    by destruct (Ascii.eqb c sep).
Qed.

Lemma lines_concat (l : string) (ls : list string) :
  Forall (λ x, no_char newline x = true) (l :: ls) →
  lines (String.concat (String newline EmptyString) (l :: ls)) = l :: ls.
Proof.
  revert l. induction ls as [|l' ls IH]; intros l Hall.
  - apply Forall_cons in Hall as [Hl _]. unfold lines; cbn.
    by rewrite split_at_no_char.
  - apply Forall_cons in Hall as [Hl Hall].
    specialize (IH l' Hall). unfold lines in *.
    change (String.concat (String newline EmptyString) (l :: l' :: ls))
      with (l ++ String newline
              (String.concat (String newline EmptyString) (l' :: ls))).
    rewrite split_at_app by done.
    destruct (split_at newline
                (String.concat (String newline EmptyString) (l' :: ls)))
      as [w ws].
    cbn. by rewrite IH.
Qed.
End Strings.

Section Roundtrip.
Local Open Scope string_scope.

Lemma raw_of_pos_hex_digits (p : positive) (rest : string) :
  string_forall is_hex_digit rest = true →
  ∃ c ds, HexString.Raw.of_pos p rest = String c ds ∧
          string_forall is_hex_digit (String c ds) = true.
Proof.
  revert p rest. fix IH 1. intros p rest Hrest.
  do 4 try destruct p as [p|p|]; simpl HexString.Raw.of_pos;
    first [ by eexists _, _; split; [reflexivity|]; simpl; rewrite Hrest
          | apply IH; simpl; by rewrite Hrest ].
Qed.

Lemma of_Z_hex_literal (v : Z) :
  0 <= v → is_hex_literal (HexString.of_Z v) = true.
Proof.
  destruct v as [|p|p]; [done| |lia]. intros _.
  destruct (raw_of_pos_hex_digits p EmptyString eq_refl)
    as (c & ds & Heq & Hds).
  unfold is_hex_literal, HexString.of_Z, HexString.of_pos.
  simpl strip_prefix. by rewrite Heq.
Qed.

Lemma strip_prefix_Some (p s t : string) :
  strip_prefix p s = Some t → s = p ++ t.
Proof.
  revert s. induction p as [|a p IH]; intros s.
  - cbn [strip_prefix]. by intros [= ->].
  - destruct s as [|b s]; cbn [strip_prefix String.append]; [done|].
    destruct (Ascii.eqb_spec a b) as [->|]; [|done].
    by intros ->%IH.
Qed.

Lemma hex_literal_chars (s : string) :
  is_hex_literal s = true →
  string_forall (λ c, is_hex_digit c || Ascii.eqb c "x") s = true.
Proof.
  unfold is_hex_literal.
  destruct (strip_prefix "0x" s) as [[|c ds]|] eqn:Hpre; try done.
  apply strip_prefix_Some in Hpre as ->. intros Hds.
  rewrite string_forall_app. apply andb_true_intro.
  split; [reflexivity|].
  apply (string_forall_impl is_hex_digit); [by intros x ->|done].
Qed.

Lemma ident_chars (s : string) :
  is_ident s = true →
  string_forall (λ c, is_nondigit c || is_digit c) s = true.
Proof.
  destruct s as [|c s]; cbn [is_ident string_forall]; [done|].
  by intros [-> ->]%andb_prop.
Qed.

Lemma ident_char_not_blank (sep c : ascii) :
  sep = space ∨ sep = newline →
  is_nondigit c || is_digit c = true → negb (Ascii.eqb c sep) = true.
Proof.
  intros [->| ->];
    destruct c as [[] [] [] [] [] [] [] []]; by vm_compute.
Qed.

Lemma hex_char_not_blank (sep c : ascii) :
  sep = space ∨ sep = newline →
  is_hex_digit c || Ascii.eqb c "x" = true → negb (Ascii.eqb c sep) = true.
Proof.
  intros [->| ->];
    destruct c as [[] [] [] [] [] [] [] []]; by vm_compute.
Qed.

Lemma ident_no_char (sep : ascii) (s : string) :
  sep = space ∨ sep = newline → is_ident s = true → no_char sep s = true.
Proof.
  intros Hsep Hs%ident_chars. unfold no_char.
  eapply string_forall_impl; [|done].
  intros c. by apply ident_char_not_blank.
Qed.

Lemma hex_literal_no_char (sep : ascii) (s : string) :
  sep = space ∨ sep = newline →
  is_hex_literal s = true → no_char sep s = true.
Proof.
  intros Hsep Hs%hex_literal_chars. unfold no_char.
  eapply string_forall_impl; [|done].
  intros c. by apply hex_char_not_blank.
Qed.

Lemma parse_line_define (rest : string) :
  parse_line ("#define " ++ rest) =
    match split_at space rest with
    | (name, [lit]) =>
        if is_ident name && is_hex_literal lit
        then Some (Some (name, HexString.to_Z lit))
        else None
    | _ => None
    end.
Proof. reflexivity. Qed.

Lemma parse_line_serialise (d : directive) :
  wf_directive d → parse_line (serialise_directive d) = Some (Some d).
Proof.
  destruct d as [name v]. intros [Hname Hv]. simpl in Hname, Hv.
  pose proof (of_Z_hex_literal v Hv) as Hlit.
  unfold serialise_directive. cbn [fst snd].
  rewrite parse_line_define.
  change (" " ++ HexString.of_Z v) with (String space (HexString.of_Z v)).
  rewrite split_at_app by (apply ident_no_char; auto).
  rewrite split_at_no_char by (apply hex_literal_no_char; auto).
  simpl. by rewrite Hname, Hlit, HexString.to_Z_of_Z.
Qed.

Lemma serialise_directive_no_newline (d : directive) :
  wf_directive d → no_char newline (serialise_directive d) = true.
Proof.
  destruct d as [name v]. intros [Hname Hv]. simpl in Hname, Hv.
  unfold serialise_directive, no_char. cbn [fst snd].
  rewrite !string_forall_app.
  fold (no_char newline name). fold (no_char newline (HexString.of_Z v)).
  rewrite ident_no_char, hex_literal_no_char
    by auto using of_Z_hex_literal.
  reflexivity.
Qed.

Lemma parse_lines_serialise (ds : list directive) :
  Forall wf_directive ds →
  parse_lines (map serialise_directive ds) = Some ds.
Proof.
  induction 1 as [|d ds Hd _ IH]; [done|].
  simpl. by rewrite parse_line_serialise, IH.
Qed.

(** Reading back what [serialise] wrote gives the directives written,
    whatever list of well-formed directives it is. *)
Lemma parse_serialise (ds : list directive) :
  Forall wf_directive ds → parse_header (serialise ds) = Some ds.
Proof.
  intros Hwf. unfold parse_header, serialise.
  destruct ds as [|d ds]; [reflexivity|].
  change (map serialise_directive (d :: ds))
    with (serialise_directive d :: map serialise_directive ds).
  rewrite lines_concat.
  - by apply (parse_lines_serialise (d :: ds)).
  - change (Forall (λ x, no_char newline x = true)
              (map serialise_directive (d :: ds))).
    apply Forall_fmap. eapply Forall_impl; [done|].
    intros x. apply serialise_directive_no_newline.
Qed.
End Roundtrip.

Lemma debug_h_wf : Forall wf_directive debug_h.
Proof.
  unfold debug_h.
  repeat (apply Forall_cons; split; [by split; vm_compute|]).
  apply Forall_nil_2.
Qed.

(** C6: writing the header's list of (name, value) pairs as text and
    reading the text back gives the same list; the text written is the
    [#define] lines of the header, and reading the header itself gives
    that list too; and each of the six names is defined exactly once. *)
Theorem header_roundtrip :
  parse_header (serialise debug_h) = Some debug_h ∧
  lines (serialise debug_h) = define_lines header_lines ∧
  parse_header header_text = Some debug_h ∧
  length debug_h = 6%nat ∧
  Forall (λ name, times_defined name debug_h = 1%nat) debug_h.*1.
Proof.
  split; [apply parse_serialise, debug_h_wf|].
  split; [by vm_compute|]. split; [by vm_compute|]. split; [done|].
  unfold debug_h.
  repeat (apply Forall_cons; split; [by vm_compute|]).
  apply Forall_nil_2.
Qed.


(** ** Further properties of the address map *)

(** Replaces the six macros by their literals. *)
Ltac unfold_csr :=
  unfold CSR_XADC_TEMPERATURE_ADDR, CSR_CPU_OR_BRIDGE_BASE,
    CSR_CPU_OR_BRIDGE_DEBUG_CORE, CSR_CPU_OR_BRIDGE_DEBUG_DATA,
    CSR_CPU_OR_BRIDGE_DEBUG_SYNC, CSR_CPU_OR_BRIDGE_DEBUG_PACKET_COUNTER in *.

(** X1: taken as 32-bit registers, the five registers of the header (the
    base alias left out) occupy pairwise disjoint byte ranges: two
    different registers are at least 4 bytes apart. *)
Theorem registers_byte_ranges_disjoint (n1 n2 : string) (v1 v2 : Z) :
  n1 ≠ n2 →
  expand registers n1 = Some v1 →
  expand registers n2 = Some v2 →
  v1 + 4 ≤ v2 ∨ v2 + 4 ≤ v1.
Proof.
  unfold expand.
  intros Hne [Hb1 H1]%registers_lookup [Hb2 H2]%registers_lookup.
  directive_cases H1; directive_cases H2; try done; unfold_csr; lia.
Qed.

Lemma registers_byte_ranges_disjoint_witness :
  CSR_CPU_OR_BRIDGE_DEBUG_CORE + 4 ≤ CSR_XADC_TEMPERATURE_ADDR ∨
  CSR_XADC_TEMPERATURE_ADDR + 4 ≤ CSR_CPU_OR_BRIDGE_DEBUG_CORE.
Proof.
  apply (registers_byte_ranges_disjoint
           "CSR_CPU_OR_BRIDGE_DEBUG_CORE" "CSR_XADC_TEMPERATURE_ADDR");
    [discriminate | reflexivity | reflexivity].
Defined.

(** X2: the cpu_or_bridge block has no hole: every 4-byte aligned address
    of the 16 bytes at CSR_CPU_OR_BRIDGE_BASE is one of the four debug
    registers, the one whose index is its offset from the base divided
    by 4. *)
Theorem cpu_or_bridge_block_decodes (a : Z) :
  in_block CSR_CPU_OR_BRIDGE_BASE 4 a →
  a mod 4 = 0 →
  cpu_or_bridge_regs !! Z.to_nat ((a - CSR_CPU_OR_BRIDGE_BASE) / 4) = Some a.
Proof.
  unfold in_block. unfold_csr. intros Hrange Haligned.
  assert (Hcases : a = 0xe0006000 ∨ a = 0xe0006004 ∨
                   a = 0xe0006008 ∨ a = 0xe000600c).
  { apply Z.mod_divide in Haligned as [q ->]; lia. }
  destruct Hcases as [->|[->|[->| ->]]]; reflexivity.
Qed.

Lemma cpu_or_bridge_block_decodes_witness :
  cpu_or_bridge_regs !!
    Z.to_nat ((0xe0006008 - CSR_CPU_OR_BRIDGE_BASE) / 4) = Some 0xe0006008.
Proof.
  apply (cpu_or_bridge_block_decodes 0xe0006008);
    [unfold in_block, CSR_CPU_OR_BRIDGE_BASE; lia | reflexivity].
Defined.

(** X3: the names follow the addresses: a macro of the header is named
    CSR_CPU_OR_BRIDGE_... exactly when its value is an address of the
    cpu_or_bridge block. *)
Theorem bridge_prefix_iff_in_block (name : string) (v : Z) :
  expand macros name = Some v →
  is_Some (strip_prefix "CSR_CPU_OR_BRIDGE_" name) ↔
  in_block CSR_CPU_OR_BRIDGE_BASE 4 v.
Proof.
  unfold expand, in_block. intros H%macros_lookup.
  directive_cases H; unfold_csr;
    (split; [intros Hpre | intros Hrange]);
    first [ lia
          | by eexists
          | by (vm_compute in Hpre; apply is_Some_None in Hpre) ].
Qed.

Lemma bridge_prefix_iff_in_block_witness :
  is_Some (strip_prefix "CSR_CPU_OR_BRIDGE_" "CSR_XADC_TEMPERATURE_ADDR") ↔
  in_block CSR_CPU_OR_BRIDGE_BASE 4 CSR_XADC_TEMPERATURE_ADDR.
Proof.
  apply (bridge_prefix_iff_in_block "CSR_XADC_TEMPERATURE_ADDR").
  reflexivity.
Defined.

(** X4: the header lists its macros by ascending address: of two
    directives, the one further down the file has no smaller value, and
    the two values are the same only for CSR_CPU_OR_BRIDGE_BASE (the second
    directive) and CSR_CPU_OR_BRIDGE_DEBUG_CORE (the third). *)
Theorem debug_h_ascending (i j : nat) (d1 d2 : directive) :
  (i < j)%nat →
  debug_h !! i = Some d1 →
  debug_h !! j = Some d2 →
  d1.2 ≤ d2.2 ∧ (d1.2 = d2.2 → i = 1%nat ∧ j = 2%nat).
Proof.
  unfold debug_h. intros Hij Hi Hj.
  destruct i as [|[|[|[|[|[|i]]]]]]; destruct j as [|[|[|[|[|[|j]]]]]];
    try lia; simpl in Hi, Hj; try done;
    injection Hi as <-; injection Hj as <-;
    cbn [fst snd]; unfold_csr; lia.
Qed.

Lemma debug_h_ascending_witness :
  CSR_CPU_OR_BRIDGE_BASE ≤ CSR_CPU_OR_BRIDGE_DEBUG_CORE ∧
  (CSR_CPU_OR_BRIDGE_BASE = CSR_CPU_OR_BRIDGE_DEBUG_CORE →
   1%nat = 1%nat ∧ 2%nat = 2%nat).
Proof.
  apply (debug_h_ascending 1 2
           ("CSR_CPU_OR_BRIDGE_BASE"%string, CSR_CPU_OR_BRIDGE_BASE)
           ("CSR_CPU_OR_BRIDGE_DEBUG_CORE"%string,
             CSR_CPU_OR_BRIDGE_DEBUG_CORE));
    [lia | reflexivity | reflexivity].
Defined.

(** X5: every address of the header is in the 64 KiB window at 0xe0000000
    (its upper 16 bits are 0xe000), so its bit 31 is set: the value is
    above 2^31 - 1, the largest signed 32-bit integer. *)
Theorem constants_in_csr_window (name : string) (v : Z) :
  expand macros name = Some v →
  0xe0000000 ≤ v < 0xe0010000 ∧
  Z.shiftr v 16 = 0xe000 ∧
  Z.testbit v 31 = true ∧
  2 ^ 31 - 1 < v.
Proof.
  unfold expand. intros H%macros_lookup.
  directive_cases H; unfold_csr; (split; [lia|]); by vm_compute.
Qed.

Lemma constants_in_csr_window_witness :
  0xe0000000 ≤ CSR_XADC_TEMPERATURE_ADDR < 0xe0010000 ∧
  Z.shiftr CSR_XADC_TEMPERATURE_ADDR 16 = 0xe000 ∧
  Z.testbit CSR_XADC_TEMPERATURE_ADDR 31 = true ∧
  2 ^ 31 - 1 < CSR_XADC_TEMPERATURE_ADDR.
Proof.
  apply (constants_in_csr_window "CSR_XADC_TEMPERATURE_ADDR"). reflexivity.
Defined.
